(** * dabom-langchain: the Dabom search client and its LangChain tool

    A shallow embedding of [dabom_search_api_wrapper.py] and
    [dabom_search.py].  Python values that travel as JSON are terms of
    [json]; a call that may raise returns a [py_result]; code that talks to
    the network runs in [IO], a state-and-exception monad whose state is the
    list of HTTP requests handed to the HTTP library so far.  The remote
    service, the JSON decoder and the built-in [repr] are not part of the
    package: they are the variables of the section [Runtime]. *)

From Stdlib Require Import Ascii String.
From stdpp Require Import base option list strings gmap pretty.

Open Scope Z_scope.
Open Scope string_scope.
Open Scope list_scope.

#[local] Set Warnings "-register-all".

(** ** Python values *)

(** The values [json.loads] produces and [json.dumps] consumes.  A [dict] is
    the list of its items in insertion order; its keys are pairwise distinct,
    and [dict_get] reads the first item with the key. *)
Inductive json : Type :=
| JNull
| JBool (b : bool)
| JInt (n : Z)
| JFloat (literal : string)
| JStr (s : string)
| JArr (items : list json)
| JObj (fields : list (string * json)).

(** An HTTP response as the two HTTP libraries present it. *)
Record http_response : Type := {
  status : Z;
  reason : string;
  resp_url : string;
  text : string;
}.

(** Instances of Python's [Exception] class that the package, the libraries
    it calls and the interpreter raise on the modelled paths. *)
Inductive py_exception : Type :=
| KeyError (key : string)
| TypeError (msg : string)
| ValueError (msg : string)
| JSONDecodeError (doc : string)
| HTTPError (msg : string) (response : http_response)
| ConnectionError (msg : string)
| ValidationError (errors : list string)
| PyException (msg : string).

Inductive py_result (A : Type) : Type :=
| Return (a : A)
| Raise (e : py_exception).
Arguments Return {A} a.
Arguments Raise {A} e.

#[global] Instance py_result_ret : MRet py_result := λ A a, Return a.
#[global] Instance py_result_bind : MBind py_result := λ A B f m,
  match m with
  | Return a => f a
  | Raise e => Raise e
  end.
#[global] Instance py_result_fmap : FMap py_result := λ A B f m,
  match m with
  | Return a => Return (f a)
  | Raise e => Raise e
  end.

(** A call-site argument of a parameter that has a default value. *)
Inductive arg (A : Type) : Type :=
| Omitted
| Passed (a : A).
Arguments Omitted {A}.
Arguments Passed {A} a.

Definition default_to {A : Type} (d : A) (x : arg A) : A :=
  match x with
  | Omitted => d
  | Passed a => a
  end.

(** [d.get(key)] on the items of a dict. *)
Fixpoint dict_get (key : string) (d : list (string * json)) : option json :=
  match d with
  | [] => None
  | (k, v) :: d' => if String.eqb k key then Some v else dict_get key d'
  end.

Definition dict_keys (d : list (string * json)) : list string := d.*1.

(** [v[key]] for a string [key]: only a dict can be indexed by a string, and
    a dict without the key raises [KeyError]. *)
Definition py_getitem (v : json) (key : string) : py_result json :=
  match v with
  | JObj fields =>
      match dict_get key fields with
      | Some x => Return x
      | None => Raise (KeyError key)
      end
  | JArr _ => Raise (TypeError "list indices must be integers or slices, not str")
  | JStr _ => Raise (TypeError "string indices must be integers")
  | JNull => Raise (TypeError "'NoneType' object is not subscriptable")
  | JBool _ => Raise (TypeError "'bool' object is not subscriptable")
  | JInt _ => Raise (TypeError "'int' object is not subscriptable")
  | JFloat _ => Raise (TypeError "'float' object is not subscriptable")
  end.

Fixpoint py_chars (s : string) : list json :=
  match s with
  | EmptyString => []
  | String c s' => JStr (String c EmptyString) :: py_chars s'
  end.

(** The elements a [for] loop over [v] visits: the items of a list, the keys
    of a dict, the characters of a string; other values are not iterable. *)
Definition py_iter (v : json) : py_result (list json) :=
  match v with
  | JArr items => Return items
  | JObj fields => Return (JStr <$> dict_keys fields)
  | JStr s => Return (py_chars s)
  | JNull => Raise (TypeError "'NoneType' object is not iterable")
  | JBool _ => Raise (TypeError "'bool' object is not iterable")
  | JInt _ => Raise (TypeError "'int' object is not iterable")
  | JFloat _ => Raise (TypeError "'float' object is not iterable")
  end.

(** [Optional[int]] as [json.dumps] writes it. *)
Definition json_of_optional_int (n : option Z) : json :=
  match n with
  | Some z => JInt z
  | None => JNull
  end.

(** ** HTTP *)

Record http_request : Type := {
  req_method : string;
  req_url : string;
  req_headers : list (string * string);
  req_json : json;
}.

(** Network code: the requests handed to the HTTP library so far are the
    state, and an exception leaves the state as it was when it was raised. *)
Definition IO (A : Type) : Type :=
  list http_request → py_result A * list http_request.

Definition io_ret {A : Type} (a : A) : IO A := λ sent, (Return a, sent).

Definition io_bind {A B : Type} (m : IO A) (f : A → IO B) : IO B := λ sent,
  match m sent with
  | (Return a, sent') => f a sent'
  | (Raise e, sent') => (Raise e, sent')
  end.

Definition io_lift {A : Type} (r : py_result A) : IO A := λ sent, (r, sent).

(** [try: body / except Exception as e: handler e]. *)
Definition try_except {A : Type} (body : IO A) (handler : py_exception → IO A)
  : IO A := λ sent,
  match body sent with
  | (Return a, sent') => (Return a, sent')
  | (Raise e, sent') => handler e sent'
  end.

Declare Scope io_scope.
Delimit Scope io_scope with io.
Notation "x <- m ;; k" := (io_bind m (λ x, k))
  (at level 100, m at next level, right associativity) : io_scope.
Notation "m ;; k" := (io_bind m (λ _, k))
  (at level 100, right associativity) : io_scope.

(** ** dabom_search_api_wrapper.py *)

Definition DABOM_API_URL : string := "https://api.dabomai.com".

Record DabomSearchAPIWrapper : Type := {
  dabom_api_key : string;
}.

Definition _get_headers (self : DabomSearchAPIWrapper) : list (string * string) :=
  [("Authorization", "Bearer " +:+ dabom_api_key self);
   ("Content-Type", "application/json")].

(** The loop of [clean_results]: [clean] is the list built so far. *)
Fixpoint clean_results_loop (results : list json) (clean : list json)
  : py_result (list json) :=
  match results with
  | [] => Return clean
  | result :: rest =>
      url ← py_getitem result "url";
      content ← py_getitem result "content";
      clean_results_loop rest
        (clean ++ [JObj [("url", url); ("content", content)]])
  end.

Definition clean_results (self : DabomSearchAPIWrapper) (results : json)
  : py_result (list json) :=
  items ← py_iter results;
  clean_results_loop items [].

(** ** The libraries the package calls *)

(** [requests.Response.raise_for_status]: a status from 400 to 599 raises
    [HTTPError], whose message names the status and the reason and which
    carries the response; every other status passes. *)
Definition raise_for_status (response : http_response) : py_result unit :=
  if bool_decide (400 ≤ status response < 500) then
    Raise (HTTPError (pretty (status response) +:+ " Client Error: "
                      +:+ reason response +:+ " for url: " +:+ resp_url response)
                     response)
  else if bool_decide (500 ≤ status response < 600) then
    Raise (HTTPError (pretty (status response) +:+ " Server Error: "
                      +:+ reason response +:+ " for url: " +:+ resp_url response)
                     response)
  else Return ().

(** [langchain_core.utils.get_from_env] and [get_from_dict_or_env]: an entry
    counts when it is there and truthy, that is, not the empty string. *)
Definition get_from_env (key env_key : string) (environ : gmap string string)
  : py_result string :=
  match environ !! env_key with
  | Some v =>
      if bool_decide (v = "") then
        Raise (ValueError ("Did not find " +:+ key
          +:+ ", please add an environment variable `" +:+ env_key
          +:+ "` which contains it, or pass `" +:+ key
          +:+ "` as a named parameter."))
      else Return v
  | None =>
      Raise (ValueError ("Did not find " +:+ key
        +:+ ", please add an environment variable `" +:+ env_key
        +:+ "` which contains it, or pass `" +:+ key
        +:+ "` as a named parameter."))
  end.

Definition get_from_dict_or_env (data : gmap string string)
    (key env_key : string) (environ : gmap string string) : py_result string :=
  match data !! key with
  | Some v =>
      if bool_decide (v = "") then get_from_env key env_key environ
      else Return v
  | None => get_from_env key env_key environ
  end.

(** ** Construction of the client *)

Definition validate_environment (values : gmap string string)
    (environ : gmap string string) : py_result (gmap string string) :=
  dabom_api_key ← get_from_dict_or_env values "dabom_api_key" "DABOM_API_KEY" environ;
  mret (<["dabom_api_key" := dabom_api_key]> values).

(** The constructor [DabomSearchAPIWrapper] on keyword arguments: pydantic runs the pre root validator
    and reports a [ValueError] of it as a [ValidationError]; with
    [Extra.forbid] a keyword that is not a field is an error as well. *)
Definition new_DabomSearchAPIWrapper (kwargs : gmap string string)
    (environ : gmap string string) : py_result DabomSearchAPIWrapper :=
  match validate_environment kwargs environ with
  | Raise (ValueError msg) => Raise (ValidationError [msg])
  | Raise e => Raise e
  | Return values =>
      match values !! "dabom_api_key" with
      | None => Raise (ValidationError ["field required"])
      | Some key =>
          if bool_decide (delete "dabom_api_key" values = ∅) then
            Return {| dabom_api_key := key |}
          else Raise (ValidationError ["extra fields not permitted"])
      end
  end.

(** ** The client's calls and the tool *)

(** What [_run] and [_arun] return: [Union[List[Dict], str]]. *)
Inductive tool_output : Type :=
| ToolResults (results : list json)
| ToolText (s : string).

Record DabomSearchResults : Type := {
  name : string;
  api_wrapper : DabomSearchAPIWrapper;
  max_results : Z;
}.

(** [DabomSearchResults(api_wrapper=..., max_results=...)]: an omitted
    [api_wrapper] is built by the default factory. *)
Definition new_DabomSearchResults (api_wrapper : arg DabomSearchAPIWrapper)
    (max_results : arg Z) (environ : gmap string string)
  : py_result DabomSearchResults :=
  api_wrapper ← match api_wrapper with
                | Passed w => Return w
                | Omitted => new_DabomSearchAPIWrapper ∅ environ
                end;
  mret {| name := "tavily_search_results_json";
          api_wrapper := api_wrapper;
          max_results := default_to 5 max_results |}.

Section Runtime.
(** What the remote end answers to a request, or the failure of the
    exchange. *)
Variable server : http_request → py_result http_response.
(** [json.loads]: the decoded document, or [None] for a text that is not
    JSON. *)
Variable json_loads : string → option json.
(** The built-in [repr] on exceptions. *)
Variable repr : py_exception → string.

Open Scope io_scope.

Definition http_post (req : http_request) : IO http_response :=
  λ sent, (server req, sent ++ [req]).

(** [requests.post(url, json=..., headers=...)]. *)
Definition requests_post (url : string) (json : json)
    (headers : list (string * string)) : IO http_response :=
  http_post {| req_method := "POST"; req_url := url;
               req_headers := headers; req_json := json |}.

(** [aiohttp.ClientSession(headers=...).post(url, json=...)]. *)
Definition session_post (headers : list (string * string)) (url : string)
    (json : json) : IO http_response :=
  http_post {| req_method := "POST"; req_url := url;
               req_headers := headers; req_json := json |}.

Definition decode_json (doc : string) : py_result json :=
  match json_loads doc with
  | Some j => Return j
  | None => Raise (JSONDecodeError doc)
  end.

(** [requests.Response.json], on the text of the body: how the library gets
    from the bytes of the body to that text lies outside the modelled
    response. *)
Definition response_json (response : http_response) : py_result json :=
  decode_json (text response).

Definition raw_results (self : DabomSearchAPIWrapper) (query : string)
    (max_results : arg (option Z)) : IO json :=
  let max_results := default_to (Some 5) max_results in
  let params := [("query", JStr query);
                 ("max_results", json_of_optional_int max_results)] in
  response <- requests_post (DABOM_API_URL +:+ "/search") (JObj params)
                (_get_headers self);;
  io_lift (raise_for_status response);;
  io_lift (response_json response).

Definition results (self : DabomSearchAPIWrapper) (query : string)
    (max_results : arg (option Z)) : IO (list json) :=
  let max_results := default_to (Some 5) max_results in
  raw_search_results <- raw_results self query (Passed max_results);;
  io_lift (res ← py_getitem raw_search_results "results";
           clean_results self res).

Definition fetch (self : DabomSearchAPIWrapper) (query : string)
    (max_results : option Z) : IO string :=
  let params := [("api_key", JStr (dabom_api_key self));
                 ("query", JStr query);
                 ("max_results", json_of_optional_int max_results)] in
  res <- session_post (_get_headers self) (DABOM_API_URL +:+ "/search")
           (JObj params);;
  if bool_decide (status res = 200) then io_ret (text res)
  else io_lift (Raise (PyException
         ("Error " +:+ pretty (status res) +:+ ": " +:+ reason res))).

Definition raw_results_async (self : DabomSearchAPIWrapper) (query : string)
    (max_results : arg (option Z)) : IO json :=
  let max_results := default_to (Some 5) max_results in
  results_json_str <- fetch self query max_results;;
  io_lift (decode_json results_json_str).

Definition results_async (self : DabomSearchAPIWrapper) (query : string)
    (max_results : arg (option Z)) : IO (list json) :=
  let max_results := default_to (Some 5) max_results in
  results_json <- raw_results_async self query (Passed max_results);;
  io_lift (res ← py_getitem results_json "results";
           clean_results self res).

(** *** dabom_search.py *)

Definition _run (self : DabomSearchResults) (query : string) : IO tool_output :=
  try_except
    (r <- results (api_wrapper self) query (Passed (Some (max_results self)));;
     io_ret (ToolResults r))
    (λ e, io_ret (ToolText (repr e))).

Definition _arun (self : DabomSearchResults) (query : string) : IO tool_output :=
  try_except
    (r <- results_async (api_wrapper self) query
            (Passed (Some (max_results self)));;
     io_ret (ToolResults r))
    (λ e, io_ret (ToolText (repr e))).

End Runtime.

(** * Definitions of the statements *)

(** ** Records and their projection *)

(** A result record that holds both fields [clean_results] reads. *)
Definition has_url_content (r : json) : bool :=
  match r with
  | JObj fields =>
      bool_decide (is_Some (dict_get "url" fields))
      && bool_decide (is_Some (dict_get "content" fields))
  | _ => false
  end.


(** [o] is the cleaned form of the record [r]. *)
Definition cleaned_from (r o : json) : Prop :=
  ∃ url content,
    py_getitem r "url" = Return url
    ∧ py_getitem r "content" = Return content
    ∧ o = JObj [("url", url); ("content", content)].

(** ** Malformed documents *)




(** ** What each call sends and computes *)

(** The request of the synchronous path and the one of the asynchronous
    path, as the two bodies of the source build them. *)
Definition sync_request (self : DabomSearchAPIWrapper) (query : string)
    (max_results : option Z) : http_request :=
  {| req_method := "POST";
     req_url := "https://api.dabomai.com/search";
     req_headers := _get_headers self;
     req_json := JObj [("query", JStr query);
                       ("max_results", json_of_optional_int max_results)] |}.

Definition async_request (self : DabomSearchAPIWrapper) (query : string)
    (max_results : option Z) : http_request :=
  {| req_method := "POST";
     req_url := "https://api.dabomai.com/search";
     req_headers := _get_headers self;
     req_json := JObj [("api_key", JStr (dabom_api_key self));
                       ("query", JStr query);
                       ("max_results", json_of_optional_int max_results)] |}.

(** A remote end that answers every request with [response]. *)
Definition mock (response : http_response)
  : http_request → py_result http_response := λ _, Return response.

(** The status gate of [fetch]. *)
Definition fetch_gate (res : http_response) : py_result string :=
  if bool_decide (status res = 200) then Return (text res)
  else Raise (PyException
         ("Error " +:+ pretty (status res) +:+ ": " +:+ reason res)).

(** ** An example run *)

Definition dquote (s : string) : string :=
  String "034"%char s +:+ String "034"%char EmptyString.

(** A response body with two result records, and its decoded form. *)
Definition example_doc : string :=
  "{" +:+ dquote "results" +:+ ": [{"
  +:+ dquote "url" +:+ ": " +:+ dquote "https://x.test" +:+ ", "
  +:+ dquote "content" +:+ ": " +:+ dquote "hello" +:+ ", "
  +:+ dquote "title" +:+ ": " +:+ dquote "t" +:+ ", "
  +:+ dquote "score" +:+ ": 0.9}, {"
  +:+ dquote "url" +:+ ": " +:+ dquote "https://y.test" +:+ ", "
  +:+ dquote "content" +:+ ": " +:+ dquote "world" +:+ "}]}".

Definition example_records : list json :=
  [JObj [("url", JStr "https://x.test"); ("content", JStr "hello");
         ("title", JStr "t"); ("score", JFloat "0.9")];
   JObj [("url", JStr "https://y.test"); ("content", JStr "world")]].

Definition example_raw : json := JObj [("results", JArr example_records)].

(** A document whose only record has no [content]. *)
Definition lacking_doc : string :=
  "{" +:+ dquote "results" +:+ ": [{"
  +:+ dquote "url" +:+ ": " +:+ dquote "https://x.test" +:+ "}]}".

Definition lacking_raw : json :=
  JObj [("results", JArr [JObj [("url", JStr "https://x.test")]])].







(** [json.loads] on the texts the examples use; [<html>] stands for a body
    that is not JSON. *)
Definition example_json_loads (doc : string) : option json :=
  if String.eqb doc example_doc then Some example_raw
  else if String.eqb doc lacking_doc then Some lacking_raw
  else if String.eqb doc "{}" then Some (JObj [])
  else if String.eqb doc "[]" then Some (JArr [])
  else None.


(** [repr] on exceptions whose arguments need no escaping. *)
Definition example_repr (e : py_exception) : string :=
  match e with
  | KeyError key => "KeyError('" +:+ key +:+ "')"
  | TypeError msg => "TypeError(" +:+ dquote msg +:+ ")"
  | ValueError msg => "ValueError('" +:+ msg +:+ "')"
  | JSONDecodeError _ => "JSONDecodeError('Expecting value: line 1 column 1 (char 0)')"
  | HTTPError msg _ => "HTTPError('" +:+ msg +:+ "')"
  | ConnectionError msg => "ConnectionError('" +:+ msg +:+ "')"
  | ValidationError _ => "ValidationError(model='DabomSearchAPIWrapper')"
  | PyException msg => "Exception('" +:+ msg +:+ "')"
  end.

Definition example_response (code : Z) (phrase body : string) : http_response :=
  {| status := code; reason := phrase;
     resp_url := "https://api.dabomai.com/search"; text := body |}.

Definition example_client : DabomSearchAPIWrapper := {| dabom_api_key := "secret" |}.

Definition example_tool : DabomSearchResults :=
  {| name := "tavily_search_results_json";
     api_wrapper := example_client;
     max_results := 5 |}.

(** ** Further notions *)

(** The exception the body of the cleaning loop raises on [r], if any: the
    one of [r["url"]], else the one of [r["content"]]. *)
Definition record_error (r : json) : option py_exception :=
  match py_getitem r "url" with
  | Raise e => Some e
  | Return _ =>
      match py_getitem r "content" with
      | Raise e => Some e
      | Return _ => None
      end
  end.

(** Two records that read alike under [url] and under [content]. *)
Definition same_url_content (r r' : json) : Prop :=
  py_getitem r "url" = py_getitem r' "url"
  ∧ py_getitem r "content" = py_getitem r' "content".

(** A POST to the search endpoint with the headers of [self]. *)
Definition is_search_post (self : DabomSearchAPIWrapper) (req : http_request)
  : Prop :=
  req_method req = "POST"
  ∧ req_url req = "https://api.dabomai.com/search"
  ∧ req_headers req = [("Authorization", "Bearer " +:+ dabom_api_key self);
                       ("Content-Type", "application/json")].

(** A remote end that cannot be reached. *)
Definition unreachable (e : py_exception)
  : http_request → py_result http_response := λ _, Raise e.

(** The exceptions of reading a decoded document: a missing [results],
    [url] or [content], or a value of the wrong type. *)
Definition shape_error (e : py_exception) : Prop :=
  e = KeyError "results" ∨ e = KeyError "url" ∨ e = KeyError "content"
  ∨ ∃ msg, e = TypeError msg.

(** * Properties *)

(** ** The cleaning loop *)

Lemma has_url_content_getitem r :
  has_url_content r = true →
  ∃ url content,
    py_getitem r "url" = Return url ∧ py_getitem r "content" = Return content.
Proof.
  destruct r as [| | | | | |fields]; simpl; try done.
  rewrite andb_true_iff, !bool_decide_eq_true.
  intros [[u Hu] [c Hc]]. exists u, c. by rewrite Hu, Hc.
Qed.


(** The loop only appends to the list it was started with. *)
Lemma clean_results_loop_acc rs : ∀ acc,
  clean_results_loop rs acc = (λ out, acc ++ out) <$> clean_results_loop rs [].
Proof.
  induction rs as [|r rs IH]; intros acc; simpl.
  - by rewrite app_nil_r.
  - destruct (py_getitem r "url") as [u|e]; simpl; [|done].
    destruct (py_getitem r "content") as [c|e]; simpl; [|done].
    rewrite (IH (acc ++ _)), (IH [_]).
    destruct (clean_results_loop rs []) as [out|e]; simpl; [|done].
    by rewrite <- app_assoc.
Qed.

Lemma clean_results_loop_cons r rs :
  clean_results_loop (r :: rs) [] =
    (url ← py_getitem r "url";
     content ← py_getitem r "content";
     out ← clean_results_loop rs [];
     mret (JObj [("url", url); ("content", content)] :: out)).
Proof.
  simpl. destruct (py_getitem r "url") as [u|e]; simpl; [|done].
  destruct (py_getitem r "content") as [c|e]; simpl; [|done].
  rewrite clean_results_loop_acc.
  by destruct (clean_results_loop rs []).
Qed.

(** On complete records the loop is the element-wise projection. *)
Lemma clean_results_loop_complete rs :
  forallb has_url_content rs = true →
  ∃ out, clean_results_loop rs [] = Return out ∧ Forall2 cleaned_from rs out.
Proof.
  induction rs as [|r rs IH]; intros Hall.
  - exists []. by split; [|constructor].
  - apply andb_true_iff in Hall as [Hr Hrs].
    destruct (IH Hrs) as (out & Hout & Hrel).
    destruct (has_url_content_getitem r Hr) as (u & c & Hu & Hc).
    exists (JObj [("url", u); ("content", c)] :: out). split.
    + by rewrite clean_results_loop_cons, Hu, Hc, Hout.
    + constructor; [by exists u, c|done].
Qed.


Lemma clean_results_loop_Return (rs : list json) : ∀ out,
  clean_results_loop rs [] = Return out → Forall2 cleaned_from rs out.
Proof.
  induction rs as [|r rs IH]; intros out H.
  - injection H as <-. constructor.
  - rewrite clean_results_loop_cons in H.
    destruct (py_getitem r "url") as [u|e] eqn:Hu; simpl in H; [|done].
    destruct (py_getitem r "content") as [c|e] eqn:Hc; simpl in H; [|done].
    destruct (clean_results_loop rs []) as [out'|e]; simpl in H; [|done].
    injection H as <-. constructor; [by exists u, c|by apply IH].
Qed.

Lemma py_getitem_Raise v key e :
  py_getitem v key = Raise e → e = KeyError key ∨ ∃ msg, e = TypeError msg.
Proof.
  destruct v as [| | | | | |fields]; simpl;
    try (intros [= <-]; right; by eexists).
  destruct (dict_get key fields); [done|]. intros [= <-]. by left.
Qed.

Lemma clean_results_loop_Raise rs e :
  clean_results_loop rs [] = Raise e →
  e = KeyError "url" ∨ e = KeyError "content" ∨ ∃ msg, e = TypeError msg.
Proof.
  induction rs as [|r rs IH]; [done|].
  rewrite clean_results_loop_cons.
  destruct (py_getitem r "url") as [u|e1] eqn:Hu; simpl.
  - destruct (py_getitem r "content") as [c|e2] eqn:Hc; simpl.
    + destruct (clean_results_loop rs []) as [out|e3]; simpl; [done|].
      intros [= <-]. by apply IH.
    + intros [= <-]. destruct (py_getitem_Raise _ _ _ Hc) as [->|?]; auto.
  - intros [= <-]. destruct (py_getitem_Raise _ _ _ Hu) as [->|?]; auto.
Qed.


Lemma Forall2_cleaned_lookup rs out :
  Forall2 cleaned_from rs out →
  length out = length rs
  ∧ ∀ (i : nat) r, rs !! i = Some r →
      ∃ url content,
        py_getitem r "url" = Return url
        ∧ py_getitem r "content" = Return content
        ∧ out !! i = Some (JObj [("url", url); ("content", content)]).
Proof.
  intros H. split; [by rewrite (Forall2_length _ _ _ H)|].
  intros i r Hi.
  destruct (Forall2_lookup_l _ _ _ _ _ H Hi) as (o & Ho & u & c & Hu & Hc & ->).
  by exists u, c.
Qed.

(** ** The calls, unfolded *)

Section Calls.
Variable server : http_request → py_result http_response.
Variable json_loads : string → option json.
Variable repr : py_exception → string.
Variable self : DabomSearchAPIWrapper.
Variable query : string.

Lemma raw_results_run (max_results : arg (option Z)) sent :
  raw_results server json_loads self query max_results sent =
    (response ← server (sync_request self query (default_to (Some 5) max_results));
     _ ← raise_for_status response;
     response_json json_loads response,
     sent ++ [sync_request self query (default_to (Some 5) max_results)]).
Proof.
  unfold raw_results, requests_post, http_post, io_bind, io_lift, sync_request.
  simpl. destruct (server _) as [response|e]; simpl; [|done].
  by destruct (raise_for_status response).
Qed.

Lemma raw_results_async_run (max_results : arg (option Z)) sent :
  raw_results_async server json_loads self query max_results sent =
    (res ← server (async_request self query (default_to (Some 5) max_results));
     doc ← fetch_gate res;
     decode_json json_loads doc,
     sent ++ [async_request self query (default_to (Some 5) max_results)]).
Proof.
  unfold raw_results_async, fetch, session_post, http_post, io_bind, io_lift,
    io_ret, async_request, fetch_gate.
  simpl. destruct (server _) as [res|e]; simpl; [|done].
  by destruct (bool_decide (status res = 200)).
Qed.

Lemma results_run (max_results : arg (option Z)) sent :
  results server json_loads self query max_results sent =
    (raw ← (raw_results server json_loads self query max_results sent).1;
     res ← py_getitem raw "results";
     clean_results self res,
     (raw_results server json_loads self query max_results sent).2).
Proof.
  unfold results, io_bind, io_lift. rewrite !raw_results_run. simpl.
  by destruct (_ ≫= _).
Qed.

Lemma results_async_run (max_results : arg (option Z)) sent :
  results_async server json_loads self query max_results sent =
    (raw ← (raw_results_async server json_loads self query max_results sent).1;
     res ← py_getitem raw "results";
     clean_results self res,
     (raw_results_async server json_loads self query max_results sent).2).
Proof.
  unfold results_async, io_bind, io_lift. rewrite !raw_results_async_run. simpl.
  by destruct (_ ≫= _).
Qed.

(** Cleaning a raw response whose [results] are complete records. *)
Lemma clean_complete raw rs :
  py_getitem raw "results" = Return (JArr rs) →
  forallb has_url_content rs = true →
  ∃ out,
    (res ← py_getitem raw "results"; clean_results self res) = Return out
    ∧ length out = length rs
    ∧ ∀ (i : nat) r, rs !! i = Some r →
        ∃ url content,
          py_getitem r "url" = Return url
          ∧ py_getitem r "content" = Return content
          ∧ out !! i = Some (JObj [("url", url); ("content", content)]).
Proof.
  intros Hres Hall.
  destruct (clean_results_loop_complete rs Hall) as (out & Hout & Hrel).
  exists out. rewrite Hres. simpl. split; [done|].
  by apply Forall2_cleaned_lookup.
Qed.

End Calls.

(** ** Example runs *)

Example clean_results_example :
  clean_results example_client (JArr example_records) =
    Return [JObj [("url", JStr "https://x.test"); ("content", JStr "hello")];
            JObj [("url", JStr "https://y.test"); ("content", JStr "world")]].
Proof. reflexivity. Qed.

Example results_example :
  results (mock (example_response 200 "OK" example_doc)) example_json_loads
    example_client "x" Omitted [] =
    (Return [JObj [("url", JStr "https://x.test"); ("content", JStr "hello")];
             JObj [("url", JStr "https://y.test"); ("content", JStr "world")]],
     [sync_request example_client "x" (Some 5)]).
Proof. vm_compute. reflexivity. Qed.

Example run_error_example :
  _run (mock (example_response 200 "OK" "{}")) example_json_loads example_repr
    example_tool "x" [] =
    (Return (ToolText "KeyError('results')"),
     [sync_request example_client "x" (Some 5)]).
Proof. vm_compute. reflexivity. Qed.

(** ** The cleaned results *)



(** C9.  [max_results] is written into the request and read nowhere else:
    whatever its value, a response with [N] complete records comes back as
    [N] cleaned records, also when [N] is larger than [max_results]; and two
    values of [max_results] whose requests get the same answer give the same
    outcome. *)
Theorem results_not_truncated
    (server : http_request → py_result http_response)
    (json_loads : string → option json)
    (self : DabomSearchAPIWrapper) (query : string) (sent : list http_request) :
  (∀ (n : option Z) raw rs,
     py_getitem raw "results" = Return (JArr rs) →
     forallb has_url_content rs = true →
     ((raw_results server json_loads self query (Passed n) sent).1 = Return raw →
      ∃ out, (results server json_loads self query (Passed n) sent).1 = Return out
             ∧ length out = length rs)
     ∧ ((raw_results_async server json_loads self query (Passed n) sent).1
          = Return raw →
        ∃ out, (results_async server json_loads self query (Passed n) sent).1
                 = Return out
               ∧ length out = length rs))
  ∧ (∀ n m : option Z,
       server (sync_request self query n) = server (sync_request self query m) →
       (results server json_loads self query (Passed n) sent).1
       = (results server json_loads self query (Passed m) sent).1)
  ∧ (∀ n m : option Z,
       server (async_request self query n) = server (async_request self query m) →
       (results_async server json_loads self query (Passed n) sent).1
       = (results_async server json_loads self query (Passed m) sent).1).
Proof.
  split; [|split].
  - intros n raw rs Hres Hall.
    destruct (clean_complete self raw rs Hres Hall) as (out & Hout & Hlen & _).
    split; intros Hraw; exists out.
    + rewrite results_run. simpl. rewrite Hraw. simpl. by rewrite Hout.
    + rewrite results_async_run. simpl. rewrite Hraw. simpl. by rewrite Hout.
  - intros n m Heq. rewrite !results_run, !raw_results_run. simpl.
    by rewrite Heq.
  - intros n m Heq. rewrite !results_async_run, !raw_results_async_run. simpl.
    by rewrite Heq.
Qed.

Lemma results_not_truncated_witness :
  (∃ out,
     (results (mock (example_response 200 "OK" example_doc)) example_json_loads
        example_client "x" (Passed (Some 1)) []).1 = Return out
     ∧ length out = 2%nat)
  ∧ (results (mock (example_response 200 "OK" example_doc)) example_json_loads
       example_client "x" (Passed (Some 1)) []).1
    = (results (mock (example_response 200 "OK" example_doc)) example_json_loads
         example_client "x" (Passed None) []).1.
Proof.
  destruct (results_not_truncated
              (mock (example_response 200 "OK" example_doc)) example_json_loads
              example_client "x" []) as (Hlen & Hsync & _).
  split.
  - destruct (Hlen (Some 1) example_raw example_records eq_refl eq_refl)
      as [H _].
    apply H. vm_compute. reflexivity.
  - apply Hsync. reflexivity.
Defined.

(** ** Responses that lack a field *)

Lemma raise_for_status_passes response :
  ¬ (400 ≤ status response < 600) → raise_for_status response = Return ().
Proof.
  intros H. unfold raise_for_status.
  rewrite !bool_decide_eq_false_2; [done|lia..].
Qed.

Lemma raise_for_status_raises response :
  400 ≤ status response < 600 →
  ∃ msg, raise_for_status response = Raise (HTTPError msg response).
Proof.
  intros H. unfold raise_for_status.
  destruct (bool_decide (400 ≤ status response < 500)) eqn:H4; [by eexists|].
  apply bool_decide_eq_false in H4.
  rewrite bool_decide_eq_true_2; [by eexists|lia].
Qed.

Lemma fetch_gate_200 res : status res = 200 → fetch_gate res = Return (text res).
Proof. intros H. unfold fetch_gate. by rewrite bool_decide_eq_true_2. Qed.

Lemma fetch_gate_other res :
  status res ≠ 200 →
  fetch_gate res
  = Raise (PyException ("Error " +:+ pretty (status res) +:+ ": " +:+ reason res)).
Proof. intros H. unfold fetch_gate. by rewrite bool_decide_eq_false_2. Qed.


(** Strings have no string keys: a loop over strings ends without a
    [KeyError]. *)
Lemma clean_results_loop_strings (l : list json) :
  Forall (λ r, ∃ s, r = JStr s) l →
  ∀ key, clean_results_loop l [] ≠ Raise (KeyError key).
Proof.
  intros Hl key. destruct Hl as [|r l [s ->] _]; [done|].
  by rewrite clean_results_loop_cons.
Qed.

Lemma py_chars_strings s : Forall (λ r, ∃ c, r = JStr c) (py_chars s).
Proof. induction s; simpl; constructor; eauto. Qed.







(** ** The status gates of the two raw calls *)




(** C4, as the code has it.  [raw_results_async] returns [j] exactly when
    the status is 200 and the body decodes to [j]; every other status raises
    an exception whose message holds the status code and the reason; a body
    that is not JSON raises the decoder's error under status 200. *)
Theorem raw_results_async_status_gate
    (json_loads : string → option json)
    (self : DabomSearchAPIWrapper) (query : string)
    (max_results : arg (option Z)) (sent : list http_request)
    (response : http_response) :
  (∀ j,
     (raw_results_async (mock response) json_loads self query max_results sent).1
       = Return j
     ↔ status response = 200 ∧ json_loads (text response) = Some j)
  ∧ (status response ≠ 200 →
     (raw_results_async (mock response) json_loads self query max_results sent).1
       = Raise (PyException ("Error " +:+ pretty (status response) +:+ ": "
                             +:+ reason response)))
  ∧ (status response = 200 → json_loads (text response) = None →
     (raw_results_async (mock response) json_loads self query max_results sent).1
       = Raise (JSONDecodeError (text response))).
Proof.
  rewrite raw_results_async_run. unfold mock. simpl.
  destruct (decide (status response = 200)) as [Hst|Hst].
  - rewrite fetch_gate_200 by done. simpl. unfold decode_json.
    split; [|split]; [|done|by intros _ ->].
    intros j. destruct (json_loads (text response)) as [j0|].
    + split; [by intros [= ->]|by intros [_ [= ->]]].
    + split; [done|by intros [_ ?]].
  - rewrite fetch_gate_other by done. simpl.
    split; [|split]; [|done..]. intros j. split; [done|by intros [? _]].
Qed.

Lemma raw_results_async_status_gate_witness :
  (raw_results_async (mock (example_response 201 "Created" example_doc))
     example_json_loads example_client "x" Omitted []).1
    = Raise (PyException "Error 201: Created")
  ∧ (raw_results_async (mock (example_response 200 "OK" example_doc))
       example_json_loads example_client "x" Omitted []).1
    = Return example_raw.
Proof.
  split.
  - apply (raw_results_async_status_gate example_json_loads example_client "x"
             Omitted [] (example_response 201 "Created" example_doc)).
    unfold example_response. simpl. lia.
  - apply (raw_results_async_status_gate example_json_loads example_client "x"
             Omitted [] (example_response 200 "OK" example_doc)).
    split; reflexivity.
Defined.

(** Status 200 alone does not make the asynchronous call succeed: a body
    that is not JSON fails in [json.loads]. *)
Lemma raw_results_async_200_not_json :
  ¬ (status (example_response 200 "OK" "<html>") = 200 →
     ∃ j,
       (raw_results_async (mock (example_response 200 "OK" "<html>"))
          example_json_loads example_client "x" (Passed (Some 5)) []).1
       = Return j).
Proof.
  intros H. destruct H as [j Hj]; [|vm_compute in Hj; done].
  reflexivity.
Qed.

(** ** The request of each path *)

Lemma raw_results_sent server json_loads self query max_results sent :
  (raw_results server json_loads self query max_results sent).2
  = sent ++ [sync_request self query (default_to (Some 5) max_results)].
Proof. by rewrite raw_results_run. Qed.

Lemma raw_results_async_sent server json_loads self query max_results sent :
  (raw_results_async server json_loads self query max_results sent).2
  = sent ++ [async_request self query (default_to (Some 5) max_results)].
Proof. by rewrite raw_results_async_run. Qed.

Lemma results_sent server json_loads self query max_results sent :
  (results server json_loads self query max_results sent).2
  = sent ++ [sync_request self query (default_to (Some 5) max_results)].
Proof. by rewrite results_run, raw_results_run. Qed.

Lemma results_async_sent server json_loads self query max_results sent :
  (results_async server json_loads self query max_results sent).2
  = sent ++ [async_request self query (default_to (Some 5) max_results)].
Proof. by rewrite results_async_run, raw_results_async_run. Qed.

(** The synchronous path posts a body with the keys [query] and
    [max_results] and carries the key in the [Authorization] header. *)
Lemma raw_results_body_keys server json_loads self query max_results sent :
  ∃ req body,
    (raw_results server json_loads self query max_results sent).2 = sent ++ [req]
    ∧ req_method req = "POST"
    ∧ req_url req = DABOM_API_URL +:+ "/search"
    ∧ req_headers req = [("Authorization", "Bearer " +:+ dabom_api_key self);
                         ("Content-Type", "application/json")]
    ∧ req_json req = JObj body
    ∧ dict_keys body = ["query"; "max_results"].
Proof.
  eexists _, _. rewrite raw_results_sent. by repeat split.
Qed.

(** C2, the asynchronous path.  [raw_results_async] posts to the same URL
    with the same headers, but its body has three keys: next to [query] and
    [max_results] it holds [api_key], whose value is the credential. *)
Theorem raw_results_async_body_holds_api_key
    (server : http_request → py_result http_response)
    (json_loads : string → option json)
    (self : DabomSearchAPIWrapper) (query : string)
    (max_results : arg (option Z)) (sent : list http_request) :
  ∃ req body,
    (raw_results_async server json_loads self query max_results sent).2
      = sent ++ [req]
    ∧ req_method req = "POST"
    ∧ req_url req = DABOM_API_URL +:+ "/search"
    ∧ req_headers req = [("Authorization", "Bearer " +:+ dabom_api_key self);
                         ("Content-Type", "application/json")]
    ∧ req_json req = JObj body
    ∧ dict_keys body = ["api_key"; "query"; "max_results"]
    ∧ dict_get "api_key" body = Some (JStr (dabom_api_key self)).
Proof.
  eexists _, _. rewrite raw_results_async_sent. by repeat split.
Qed.

Example raw_results_async_body_example :
  (raw_results_async (mock (example_response 200 "OK" example_doc))
     example_json_loads example_client "weather" (Passed (Some 5)) []).2
  = [{| req_method := "POST";
        req_url := "https://api.dabomai.com/search";
        req_headers := [("Authorization", "Bearer secret");
                        ("Content-Type", "application/json")];
        req_json := JObj [("api_key", JStr "secret");
                          ("query", JStr "weather");
                          ("max_results", JInt 5)] |}].
Proof. reflexivity. Qed.

(** C10.  Whatever [max_results] is, an integer [z] of any sign or [None],
    both raw calls hand one request to the HTTP library whose body holds
    under [max_results] that very value, the number [z] or [null], and
    their outcome is computed from the answer to that request alone: nothing
    is checked or raised before the request is sent. *)
Theorem max_results_forwarded_verbatim
    (server : http_request → py_result http_response)
    (json_loads : string → option json)
    (self : DabomSearchAPIWrapper) (query : string)
    (sent : list http_request) :
  (∀ z : Z, ∃ req,
     raw_results server json_loads self query (Passed (Some z)) sent
     = (response ← server req;
        _ ← raise_for_status response;
        response_json json_loads response,
        sent ++ [req])
     ∧ req_json req = JObj [("query", JStr query); ("max_results", JInt z)])
  ∧ (∃ req,
       raw_results server json_loads self query (Passed None) sent
       = (response ← server req;
          _ ← raise_for_status response;
          response_json json_loads response,
          sent ++ [req])
       ∧ req_json req = JObj [("query", JStr query); ("max_results", JNull)])
  ∧ (∀ z : Z, ∃ req,
       raw_results_async server json_loads self query (Passed (Some z)) sent
       = (res ← server req;
          doc ← fetch_gate res;
          decode_json json_loads doc,
          sent ++ [req])
       ∧ req_json req = JObj [("api_key", JStr (dabom_api_key self));
                              ("query", JStr query);
                              ("max_results", JInt z)])
  ∧ (∃ req,
       raw_results_async server json_loads self query (Passed None) sent
       = (res ← server req;
          doc ← fetch_gate res;
          decode_json json_loads doc,
          sent ++ [req])
       ∧ req_json req = JObj [("api_key", JStr (dabom_api_key self));
                              ("query", JStr query);
                              ("max_results", JNull)]).
Proof.
  split; [|split; [|split]].
  - intros z. eexists. split; [apply raw_results_run|reflexivity].
  - eexists. split; [apply raw_results_run|reflexivity].
  - intros z. eexists. split; [apply raw_results_async_run|reflexivity].
  - eexists. split; [apply raw_results_async_run|reflexivity].
Qed.

Lemma max_results_forwarded_verbatim_witness :
  (∃ req,
     raw_results (mock (example_response 200 "OK" "{}")) example_json_loads
       example_client "x" (Passed (Some (-3))) []
     = (response ← mock (example_response 200 "OK" "{}") req;
        _ ← raise_for_status response;
        response_json example_json_loads response,
        [] ++ [req])
     ∧ req_json req = JObj [("query", JStr "x"); ("max_results", JInt (-3))])
  ∧ (∃ req,
       raw_results_async (mock (example_response 200 "OK" "{}"))
         example_json_loads example_client "x" (Passed None) []
       = (res ← mock (example_response 200 "OK" "{}") req;
          doc ← fetch_gate res;
          decode_json example_json_loads doc,
          [] ++ [req])
       ∧ req_json req = JObj [("api_key", JStr "secret");
                              ("query", JStr "x");
                              ("max_results", JNull)]).
Proof.
  destruct (max_results_forwarded_verbatim
              (mock (example_response 200 "OK" "{}")) example_json_loads
              example_client "x" []) as (Hint & _ & _ & Hnone).
  split; [exact (Hint (-3))|exact Hnone].
Defined.

Example max_results_zero_negative_none :
  (raw_results (mock (example_response 200 "OK" "{}")) example_json_loads
     example_client "x" (Passed (Some 0)) [])
  = (Return (JObj []), [sync_request example_client "x" (Some 0)])
  ∧ (raw_results (mock (example_response 200 "OK" "{}")) example_json_loads
       example_client "x" (Passed (Some (-3))) [])
    = (Return (JObj []), [sync_request example_client "x" (Some (-3))])
  ∧ (raw_results_async (mock (example_response 200 "OK" "{}"))
       example_json_loads example_client "x" (Passed None) [])
    = (Return (JObj []), [async_request example_client "x" None])
  ∧ req_json (async_request example_client "x" None)
    = JObj [("api_key", JStr "secret"); ("query", JStr "x");
            ("max_results", JNull)].
Proof. repeat split; vm_compute; reflexivity. Qed.

(** ** The tool *)

Lemma _run_run server json_loads repr (self : DabomSearchResults) query sent :
  _run server json_loads repr self query sent =
    (match (results server json_loads (api_wrapper self) query
              (Passed (Some (max_results self))) sent).1 with
     | Return r => Return (ToolResults r)
     | Raise e => Return (ToolText (repr e))
     end,
     (results server json_loads (api_wrapper self) query
        (Passed (Some (max_results self))) sent).2).
Proof.
  unfold _run, try_except, io_bind, io_ret.
  by destruct (results _ _ _ _ _ _) as [[r|e] sent'].
Qed.

Lemma _arun_run server json_loads repr (self : DabomSearchResults) query sent :
  _arun server json_loads repr self query sent =
    (match (results_async server json_loads (api_wrapper self) query
              (Passed (Some (max_results self))) sent).1 with
     | Return r => Return (ToolResults r)
     | Raise e => Return (ToolText (repr e))
     end,
     (results_async server json_loads (api_wrapper self) query
        (Passed (Some (max_results self))) sent).2).
Proof.
  unfold _arun, try_except, io_bind, io_ret.
  by destruct (results_async _ _ _ _ _ _) as [[r|e] sent'].
Qed.

(** C3.  [_run] and [_arun] always return a value: the cleaned list when the
    client returns one, and [repr e] when the client raises [e], whatever
    exception [e] is. *)
Theorem tool_reports_failures_in_band
    (server : http_request → py_result http_response)
    (json_loads : string → option json)
    (repr : py_exception → string)
    (self : DabomSearchResults) (query : string) (sent : list http_request) :
  ((∃ out, (_run server json_loads repr self query sent).1 = Return out)
   ∧ (∀ e,
        (results server json_loads (api_wrapper self) query
           (Passed (Some (max_results self))) sent).1 = Raise e →
        (_run server json_loads repr self query sent).1
        = Return (ToolText (repr e)))
   ∧ (∀ r,
        (results server json_loads (api_wrapper self) query
           (Passed (Some (max_results self))) sent).1 = Return r →
        (_run server json_loads repr self query sent).1
        = Return (ToolResults r)))
  ∧ ((∃ out, (_arun server json_loads repr self query sent).1 = Return out)
     ∧ (∀ e,
          (results_async server json_loads (api_wrapper self) query
             (Passed (Some (max_results self))) sent).1 = Raise e →
          (_arun server json_loads repr self query sent).1
          = Return (ToolText (repr e)))
     ∧ (∀ r,
          (results_async server json_loads (api_wrapper self) query
             (Passed (Some (max_results self))) sent).1 = Return r →
          (_arun server json_loads repr self query sent).1
          = Return (ToolResults r))).
Proof.
  rewrite _run_run, _arun_run. simpl. split.
  - destruct (results _ _ _ _ _ _).1 as [r|e];
      (split; [by eexists|split; congruence]).
  - destruct (results_async _ _ _ _ _ _).1 as [r|e];
      (split; [by eexists|split; congruence]).
Qed.

Lemma tool_reports_failures_in_band_witness :
  (_run (mock (example_response 500 "Internal Server Error" "{}"))
     example_json_loads example_repr example_tool "x" []).1
  = Return (ToolText (example_repr
      (HTTPError
         "500 Server Error: Internal Server Error for url: https://api.dabomai.com/search"
         (example_response 500 "Internal Server Error" "{}"))))
  ∧ (_arun (mock (example_response 200 "OK" "{}"))
       example_json_loads example_repr example_tool "x" []).1
    = Return (ToolText (example_repr (KeyError "results")))
  ∧ (_arun (mock (example_response 200 "OK" example_doc))
       example_json_loads example_repr example_tool "x" []).1
    = Return (ToolResults
        [JObj [("url", JStr "https://x.test"); ("content", JStr "hello")];
         JObj [("url", JStr "https://y.test"); ("content", JStr "world")]]).
Proof.
  split; [|split].
  - apply (tool_reports_failures_in_band
             (mock (example_response 500 "Internal Server Error" "{}"))
             example_json_loads example_repr example_tool "x" []).
    vm_compute. reflexivity.
  - apply (tool_reports_failures_in_band
             (mock (example_response 200 "OK" "{}"))
             example_json_loads example_repr example_tool "x" []).
    vm_compute. reflexivity.
  - apply (tool_reports_failures_in_band
             (mock (example_response 200 "OK" example_doc))
             example_json_loads example_repr example_tool "x" []).
    vm_compute. reflexivity.
Defined.

(** ** Construction and defaults *)

Lemma validate_environment_explicit (key : string) values environ :
  values !! "dabom_api_key" = Some key → key ≠ "" →
  validate_environment values environ = Return (<["dabom_api_key" := key]> values).
Proof.
  intros Hkey Hne. unfold validate_environment, get_from_dict_or_env.
  rewrite Hkey. by rewrite bool_decide_eq_false_2.
Qed.

Lemma validate_environment_env (key : string) values environ :
  values !! "dabom_api_key" = None →
  environ !! "DABOM_API_KEY" = Some key → key ≠ "" →
  validate_environment values environ = Return (<["dabom_api_key" := key]> values).
Proof.
  intros Hnone Hkey Hne.
  unfold validate_environment, get_from_dict_or_env, get_from_env.
  rewrite Hnone, Hkey. by rewrite bool_decide_eq_false_2.
Qed.

Lemma validate_environment_missing values environ :
  values !! "dabom_api_key" = None →
  environ !! "DABOM_API_KEY" = None →
  ∃ msg, validate_environment values environ = Raise (ValueError msg).
Proof.
  intros Hnone Henv.
  unfold validate_environment, get_from_dict_or_env, get_from_env.
  rewrite Hnone, Henv. by eexists.
Qed.

(** C7.  With a credential (a non-empty string) as the [dabom_api_key]
    argument the client is built with that credential, whatever the
    environment holds; without the argument and with a credential in
    [DABOM_API_KEY] it is built with the one of the environment; with
    neither, construction fails with the validator's error. *)
Theorem client_credential_sources (environ : gmap string string) :
  (∀ key : string, key ≠ "" →
     new_DabomSearchAPIWrapper {["dabom_api_key" := key]} environ
     = Return {| dabom_api_key := key |})
  ∧ (∀ key : string, environ !! "DABOM_API_KEY" = Some key → key ≠ "" →
       new_DabomSearchAPIWrapper ∅ environ = Return {| dabom_api_key := key |})
  ∧ (environ !! "DABOM_API_KEY" = None →
     ∃ msg, new_DabomSearchAPIWrapper ∅ environ = Raise (ValidationError [msg])).
Proof.
  split; [|split].
  - intros key Hne. unfold new_DabomSearchAPIWrapper.
    rewrite (validate_environment_explicit key) by (by rewrite ?lookup_singleton_eq).
    rewrite lookup_insert_eq, delete_insert_eq, delete_singleton_eq.
    by rewrite bool_decide_eq_true_2.
  - intros key Henv Hne. unfold new_DabomSearchAPIWrapper.
    rewrite (validate_environment_env key) by done.
    rewrite lookup_insert_eq, delete_insert_eq, delete_empty.
    by rewrite bool_decide_eq_true_2.
  - intros Henv. unfold new_DabomSearchAPIWrapper.
    destruct (validate_environment_missing ∅ environ) as [msg ->]; [done..|].
    by exists msg.
Qed.

Lemma client_credential_sources_witness :
  new_DabomSearchAPIWrapper {["dabom_api_key" := "explicit"]}
    {["DABOM_API_KEY" := "from-env"]}
  = Return {| dabom_api_key := "explicit" |}
  ∧ new_DabomSearchAPIWrapper ∅ {["DABOM_API_KEY" := "from-env"]}
    = Return {| dabom_api_key := "from-env" |}
  ∧ ∃ msg, new_DabomSearchAPIWrapper ∅ ∅ = Raise (ValidationError [msg]).
Proof.
  split; [|split].
  - apply (client_credential_sources {["DABOM_API_KEY" := "from-env"]}).
    discriminate.
  - apply (client_credential_sources {["DABOM_API_KEY" := "from-env"]});
      [reflexivity|discriminate].
  - apply (client_credential_sources ∅). reflexivity.
Defined.

(** C8.  A tool built without [max_results] holds 5; every client call made
    without [max_results] posts a body whose [max_results] is 5; and the
    default tool passes 5 on. *)
Theorem max_results_defaults_to_5
    (server : http_request → py_result http_response)
    (json_loads : string → option json)
    (repr : py_exception → string)
    (self : DabomSearchAPIWrapper) (query : string)
    (sent : list http_request) (environ : gmap string string) :
  (∃ tool,
     new_DabomSearchResults (Passed self) Omitted environ = Return tool
     ∧ max_results tool = 5
     ∧ (_run server json_loads repr tool query sent).2
       = sent ++ [sync_request self query (Some 5)]
     ∧ (_arun server json_loads repr tool query sent).2
       = sent ++ [async_request self query (Some 5)])
  ∧ (raw_results server json_loads self query Omitted sent).2
    = sent ++ [sync_request self query (Some 5)]
  ∧ (results server json_loads self query Omitted sent).2
    = sent ++ [sync_request self query (Some 5)]
  ∧ (raw_results_async server json_loads self query Omitted sent).2
    = sent ++ [async_request self query (Some 5)]
  ∧ (results_async server json_loads self query Omitted sent).2
    = sent ++ [async_request self query (Some 5)]
  ∧ py_getitem (req_json (sync_request self query (Some 5))) "max_results"
    = Return (JInt 5)
  ∧ py_getitem (req_json (async_request self query (Some 5))) "max_results"
    = Return (JInt 5).
Proof.
  split.
  - eexists. split; [reflexivity|]. split; [reflexivity|].
    rewrite _run_run, _arun_run. simpl.
    by rewrite results_sent, results_async_sent.
  - rewrite raw_results_sent, results_sent, raw_results_async_sent,
      results_async_sent.
    by repeat split.
Qed.

(** * Further properties of the client *)

(** ** clean_results *)

(** X1.  On a list, [clean_results] returns [out] exactly when [out] is the
    element-wise projection of the list: same length, and each element the
    [url]/[content] dict of the record at its position. *)
Theorem clean_results_returns_iff (self : DabomSearchAPIWrapper)
    (rs out : list json) :
  clean_results self (JArr rs) = Return out ↔ Forall2 cleaned_from rs out.
Proof.
  change (clean_results self (JArr rs)) with (clean_results_loop rs []).
  split; [apply clean_results_loop_Return|].
  induction 1 as [|r o rs out (u & c & Hu & Hc & ->) _ IH]; [done|].
  by rewrite clean_results_loop_cons, Hu, Hc, IH.
Qed.

Lemma cleaned_from_fixed r o : cleaned_from r o → cleaned_from o o.
Proof. intros (u & c & _ & _ & ->). by exists u, c. Qed.

Lemma clean_results_items self v out :
  clean_results self v = Return out →
  ∃ items, py_iter v = Return items ∧ Forall2 cleaned_from items out.
Proof.
  unfold clean_results. intros H.
  destruct (py_iter v) as [items|e]; simpl in H; [|done].
  exists items. split; [done|].
  by apply clean_results_loop_Return.
Qed.

(** X2.  Cleaning is idempotent: a list [clean_results] has returned is
    cleaned to itself. *)
Theorem clean_results_idempotent (self : DabomSearchAPIWrapper)
    (v : json) (out : list json) :
  clean_results self v = Return out →
  clean_results self (JArr out) = Return out.
Proof.
  intros H. destruct (clean_results_items self v out H) as (items & _ & Hrel).
  change (clean_results_loop out [] = Return out).
  clear H. induction Hrel as [|r o rs out' Hro _ IH]; [done|].
  destruct (cleaned_from_fixed r o Hro) as (u & c & Hu & Hc & Ho).
  rewrite clean_results_loop_cons, Hu, Hc, IH. simpl. by rewrite <- Ho.
Qed.

Lemma clean_results_idempotent_witness :
  clean_results example_client
    (JArr [JObj [("url", JStr "https://x.test"); ("content", JStr "hello")];
           JObj [("url", JStr "https://y.test"); ("content", JStr "world")]])
  = Return [JObj [("url", JStr "https://x.test"); ("content", JStr "hello")];
            JObj [("url", JStr "https://y.test"); ("content", JStr "world")]].
Proof.
  apply (clean_results_idempotent example_client (JArr example_records)).
  reflexivity.
Defined.

(** X3.  The loop stops at the first record it cannot read: the exception
    is the one of that record, whatever follows it, and no partial list is
    returned. *)
Theorem clean_results_first_error (self : DabomSearchAPIWrapper)
    (good : list json) (bad : json) (rest : list json) (e : py_exception) :
  forallb has_url_content good = true →
  record_error bad = Some e →
  clean_results self (JArr (good ++ bad :: rest)) = Raise e.
Proof.
  change (clean_results self (JArr (good ++ bad :: rest)))
    with (clean_results_loop (good ++ bad :: rest) []).
  intros Hgood Hbad. induction good as [|g good IH]; simpl app.
  - rewrite clean_results_loop_cons. unfold record_error in Hbad.
    destruct (py_getitem bad "url") as [u|e1]; simpl; [|congruence].
    destruct (py_getitem bad "content") as [c|e2]; simpl; congruence.
  - apply andb_true_iff in Hgood as [Hg Hgood].
    destruct (has_url_content_getitem g Hg) as (u & c & Hu & Hc).
    by rewrite clean_results_loop_cons, Hu, Hc, (IH Hgood).
Qed.

Lemma clean_results_first_error_witness :
  clean_results example_client
    (JArr (example_records ++ JObj [("url", JStr "https://z.test")]
             :: [JInt 7]))
  = Raise (KeyError "content").
Proof.
  apply (clean_results_first_error example_client example_records
           (JObj [("url", JStr "https://z.test")]) [JInt 7]); reflexivity.
Defined.

(** X4.  Cleaning a concatenation is cleaning the parts in order: the result
    is the concatenation of the two results, and the first failure wins. *)
Theorem clean_results_app (self : DabomSearchAPIWrapper) (a b : list json) :
  clean_results self (JArr (a ++ b))
  = (x ← clean_results self (JArr a);
     y ← clean_results self (JArr b);
     mret (x ++ y)).
Proof.
  change (clean_results_loop (a ++ b) []
          = (x ← clean_results_loop a [];
             y ← clean_results_loop b [];
             mret (x ++ y))).
  induction a as [|r a IH]; simpl app.
  - simpl. by destruct (clean_results_loop b []).
  - rewrite !clean_results_loop_cons, IH.
    destruct (py_getitem r "url") as [u|e]; simpl; [|done].
    destruct (py_getitem r "content") as [c|e]; simpl; [|done].
    destruct (clean_results_loop a []) as [x|e]; simpl; [|done].
    by destruct (clean_results_loop b []).
Qed.

(** X5.  Only [url] and [content] are read: two lists whose records read
    alike under these two keys are cleaned alike, whatever else the records
    hold. *)
Theorem clean_results_reads_two_fields (self : DabomSearchAPIWrapper)
    (rs rs' : list json) :
  Forall2 same_url_content rs rs' →
  clean_results self (JArr rs) = clean_results self (JArr rs').
Proof.
  change (Forall2 same_url_content rs rs' →
          clean_results_loop rs [] = clean_results_loop rs' []).
  induction 1 as [|r r' rs rs' [Hu Hc] _ IH]; [done|].
  by rewrite !clean_results_loop_cons, Hu, Hc, IH.
Qed.

Lemma clean_results_reads_two_fields_witness :
  clean_results example_client (JArr example_records)
  = clean_results example_client
      (JArr [JObj [("content", JStr "hello"); ("url", JStr "https://x.test")];
             JObj [("url", JStr "https://y.test"); ("content", JStr "world");
                   ("score", JNull)]]).
Proof.
  apply (clean_results_reads_two_fields example_client).
  repeat constructor.
Defined.

(** X6.  A value that is not a list never gives records: the empty dict and
    the empty string are cleaned to the empty list, and every other value
    raises [TypeError]. *)
Theorem clean_results_non_list (self : DabomSearchAPIWrapper) :
  clean_results self (JObj []) = Return []
  ∧ clean_results self (JStr "") = Return []
  ∧ ∀ v, (∀ rs, v ≠ JArr rs) → v ≠ JObj [] → v ≠ JStr "" →
      ∃ msg, clean_results self v = Raise (TypeError msg).
Proof.
  split; [done|]. split; [done|]. intros v Hlist Hdict Hstr.
  destruct v as [| | | |s|rs|fields]; try by eexists.
  - destruct s as [|c s]; [done|by eexists].
  - by destruct (Hlist rs).
  - destruct fields as [|[k x] fields]; [done|by eexists].
Qed.

Lemma clean_results_non_list_witness :
  clean_results example_client (JObj []) = Return []
  ∧ clean_results example_client (JStr "") = Return []
  ∧ (∃ msg, clean_results example_client (JObj [("url", JStr "u")])
            = Raise (TypeError msg))
  ∧ (∃ msg, clean_results example_client JNull = Raise (TypeError msg)).
Proof.
  destruct (clean_results_non_list example_client) as (Hdict & Hstr & Hother).
  split; [exact Hdict|]. split; [exact Hstr|].
  split; apply Hother; discriminate.
Defined.

(** ** The exchange *)

(** X7.  A failure of the exchange itself (no response at all) comes out of
    every client call as it is, and the tool returns its [repr]. *)
Theorem exchange_failure_propagates
    (json_loads : string → option json) (repr : py_exception → string)
    (tool : DabomSearchResults) (query : string)
    (max_results : arg (option Z)) (sent : list http_request)
    (e : py_exception) :
  (raw_results (unreachable e) json_loads (api_wrapper tool) query
     max_results sent).1 = Raise e
  ∧ (results (unreachable e) json_loads (api_wrapper tool) query
       max_results sent).1 = Raise e
  ∧ (raw_results_async (unreachable e) json_loads (api_wrapper tool) query
       max_results sent).1 = Raise e
  ∧ (results_async (unreachable e) json_loads (api_wrapper tool) query
       max_results sent).1 = Raise e
  ∧ (_run (unreachable e) json_loads repr tool query sent).1
    = Return (ToolText (repr e))
  ∧ (_arun (unreachable e) json_loads repr tool query sent).1
    = Return (ToolText (repr e)).
Proof.
  rewrite _run_run, _arun_run, !results_run, !results_async_run.
  by rewrite !raw_results_run, !raw_results_async_run.
Qed.

(** X8.  Every call hands exactly one request to the HTTP library, whatever
    the outcome: a POST to the search endpoint with the [Authorization] and
    [Content-Type] headers of the client.  Nothing is retried. *)
Theorem every_call_sends_one_request
    (server : http_request → py_result http_response)
    (json_loads : string → option json) (repr : py_exception → string)
    (tool : DabomSearchResults) (query : string)
    (max_results : arg (option Z)) (sent : list http_request) :
  (∃ req, (raw_results server json_loads (api_wrapper tool) query
             max_results sent).2 = sent ++ [req]
          ∧ is_search_post (api_wrapper tool) req)
  ∧ (∃ req, (results server json_loads (api_wrapper tool) query
               max_results sent).2 = sent ++ [req]
            ∧ is_search_post (api_wrapper tool) req)
  ∧ (∃ req, (raw_results_async server json_loads (api_wrapper tool) query
               max_results sent).2 = sent ++ [req]
            ∧ is_search_post (api_wrapper tool) req)
  ∧ (∃ req, (results_async server json_loads (api_wrapper tool) query
               max_results sent).2 = sent ++ [req]
            ∧ is_search_post (api_wrapper tool) req)
  ∧ (∃ req, (_run server json_loads repr tool query sent).2 = sent ++ [req]
            ∧ is_search_post (api_wrapper tool) req)
  ∧ (∃ req, (_arun server json_loads repr tool query sent).2 = sent ++ [req]
            ∧ is_search_post (api_wrapper tool) req).
Proof.
  rewrite _run_run, _arun_run. simpl.
  rewrite !results_sent, !results_async_sent, raw_results_sent,
    raw_results_async_sent.
  repeat split; by eexists.
Qed.

(** X10.  The two paths part on every status other than 200 outside
    400-599 (201, 204, 304, ...): with a body that is JSON the synchronous
    path returns the document while the asynchronous path raises its status
    error. *)
Theorem paths_differ_off_200
    (json_loads : string → option json)
    (self : DabomSearchAPIWrapper) (query : string)
    (max_results : arg (option Z)) (sent : list http_request)
    (response : http_response) (j : json) :
  status response ≠ 200 →
  ¬ (400 ≤ status response < 600) →
  json_loads (text response) = Some j →
  (raw_results (mock response) json_loads self query max_results sent).1
  = Return j
  ∧ (raw_results_async (mock response) json_loads self query max_results
       sent).1
    = Raise (PyException ("Error " +:+ pretty (status response) +:+ ": "
                          +:+ reason response)).
Proof.
  intros Hst Herr Hj. rewrite raw_results_run, raw_results_async_run.
  unfold mock. simpl.
  rewrite fetch_gate_other by done. rewrite raise_for_status_passes by done.
  unfold response_json, decode_json. simpl. by rewrite Hj.
Qed.

Lemma paths_differ_off_200_witness :
  (raw_results (mock (example_response 201 "Created" example_doc))
     example_json_loads example_client "x" Omitted []).1
  = Return example_raw
  ∧ (raw_results_async (mock (example_response 201 "Created" example_doc))
       example_json_loads example_client "x" Omitted []).1
    = Raise (PyException "Error 201: Created").
Proof.
  apply (paths_differ_off_200 example_json_loads example_client "x" Omitted []
           (example_response 201 "Created" example_doc) example_raw).
  - discriminate.
  - unfold example_response. simpl. lia.
  - reflexivity.
Defined.

(** ** The tool *)

Lemma raise_for_status_Return response :
  raise_for_status response = Return () → ¬ (400 ≤ status response < 600).
Proof.
  intros H Hst. destruct (raise_for_status_raises response Hst) as [msg Hmsg].
  congruence.
Qed.

Lemma fetch_gate_Return res doc :
  fetch_gate res = Return doc → status res = 200 ∧ doc = text res.
Proof.
  unfold fetch_gate. case_bool_decide; [|done]. by intros [= <-].
Qed.

(** X11.  A list returned by the tool is always the cleaning of a document
    the service sent: the exchange gave a response, its status was accepted
    (outside 400-599 for [_run], exactly 200 for [_arun]), its body decoded,
    and the list is the cleaned [results] of that document. *)
Theorem tool_results_come_from_response
    (server : http_request → py_result http_response)
    (json_loads : string → option json) (repr : py_exception → string)
    (tool : DabomSearchResults) (query : string) (sent : list http_request)
    (out : list json) :
  ((_run server json_loads repr tool query sent).1 = Return (ToolResults out) →
   ∃ response j,
     server (sync_request (api_wrapper tool) query (Some (max_results tool)))
       = Return response
     ∧ ¬ (400 ≤ status response < 600)
     ∧ json_loads (text response) = Some j
     ∧ (res ← py_getitem j "results"; clean_results (api_wrapper tool) res)
       = Return out)
  ∧ ((_arun server json_loads repr tool query sent).1
       = Return (ToolResults out) →
     ∃ response j,
       server (async_request (api_wrapper tool) query (Some (max_results tool)))
         = Return response
       ∧ status response = 200
       ∧ json_loads (text response) = Some j
       ∧ (res ← py_getitem j "results"; clean_results (api_wrapper tool) res)
         = Return out).
Proof.
  rewrite _run_run, _arun_run, results_run, results_async_run,
    raw_results_run, raw_results_async_run.
  simpl. split.
  - destruct (server _) as [response|e]; simpl; [|done].
    destruct (raise_for_status response) as [[]|e] eqn:Hrfs; simpl; [|done].
    unfold response_json, decode_json.
    destruct (json_loads (text response)) as [j|] eqn:Hj; simpl; [|done].
    destruct (_ ≫= _) as [r|e] eqn:Hr; simpl; [|done].
    intros [= ->]. exists response, j.
    split; [done|]. split; [by apply raise_for_status_Return|done].
  - destruct (server _) as [response|e]; simpl; [|done].
    destruct (fetch_gate response) as [doc|e] eqn:Hgate; simpl; [|done].
    apply fetch_gate_Return in Hgate as [Hst ->].
    unfold decode_json.
    destruct (json_loads (text response)) as [j|] eqn:Hj; simpl; [|done].
    destruct (_ ≫= _) as [r|e] eqn:Hr; simpl; [|done].
    intros [= ->]. by exists response, j.
Qed.

Lemma tool_results_come_from_response_witness :
  ∃ response j,
    mock (example_response 200 "OK" example_doc)
      (sync_request example_client "x" (Some 5)) = Return response
    ∧ ¬ (400 ≤ status response < 600)
    ∧ example_json_loads (text response) = Some j
    ∧ (res ← py_getitem j "results"; clean_results example_client res)
      = Return [JObj [("url", JStr "https://x.test");
                      ("content", JStr "hello")];
                JObj [("url", JStr "https://y.test");
                      ("content", JStr "world")]].
Proof.
  destruct (tool_results_come_from_response
              (mock (example_response 200 "OK" example_doc))
              example_json_loads example_repr example_tool "x" []
              [JObj [("url", JStr "https://x.test");
                     ("content", JStr "hello")];
               JObj [("url", JStr "https://y.test");
                     ("content", JStr "world")]]) as [Hsync _].
  apply Hsync. vm_compute. reflexivity.
Defined.

(** ** Construction *)

Lemma get_from_env_Return key env_key environ (v : string) :
  get_from_env key env_key environ = Return v
  ↔ environ !! env_key = Some v ∧ v ≠ "".
Proof.
  unfold get_from_env. destruct (environ !! env_key) as [x|].
  - case_bool_decide as Hx.
    + split; [done|]. intros [[= ->] ?]. done.
    + split; [by intros [= ->]|by intros [[= ->] _]].
  - split; [done|by intros [? _]].
Qed.

Lemma get_from_dict_or_env_Return data key env_key environ (v : string) :
  get_from_dict_or_env data key env_key environ = Return v
  ↔ v ≠ ""
    ∧ (data !! key = Some v
       ∨ ((data !! key = None ∨ data !! key = Some "")
          ∧ environ !! env_key = Some v)).
Proof.
  unfold get_from_dict_or_env. destruct (data !! key) as [x|].
  - case_bool_decide as Hx.
    + subst x. rewrite get_from_env_Return. split.
      * intros [? ?]. split; [done|]. right. by split; [right|].
      * intros [Hv [[= <-]|[_ ?]]]; done.
    + split.
      * intros [= ->]. split; [done|by left].
      * intros [Hv [[= ->]|[[?|[= ->]] _]]]; done.
  - rewrite get_from_env_Return. split.
    + intros [? ?]. split; [done|]. right. by split; [left|].
    + intros [Hv [?|[_ ?]]]; done.
Qed.

Lemma validate_environment_inv
    (values environ values' : gmap string string) :
  validate_environment values environ = Return values' →
  ∃ key : string,
    get_from_dict_or_env values "dabom_api_key" "DABOM_API_KEY" environ
      = Return key
    ∧ values' = <["dabom_api_key" := key]> values.
Proof.
  unfold validate_environment. intros H.
  destruct (get_from_dict_or_env values _ _ environ) as [key|e];
    simpl in H; [|done].
  injection H as <-. by exists key.
Qed.

(** X12.  A validated argument set differs from the given one in
    [dabom_api_key] alone, and the key it holds is not empty and is the one
    given, or, when none or an empty one was given, the one of
    [DABOM_API_KEY]. *)
Theorem validate_environment_result
    (values environ values' : gmap string string) :
  validate_environment values environ = Return values' →
  ∃ key : string,
    key ≠ ""
    ∧ values' = <["dabom_api_key" := key]> values
    ∧ (∀ k, k ≠ "dabom_api_key" → values' !! k = values !! k)
    ∧ (values !! "dabom_api_key" = Some key
       ∨ ((values !! "dabom_api_key" = None
           ∨ values !! "dabom_api_key" = Some "")
          ∧ environ !! "DABOM_API_KEY" = Some key)).
Proof.
  intros H.
  destruct (validate_environment_inv values environ values' H)
    as (key & Hget & ->).
  apply get_from_dict_or_env_Return in Hget as [Hne Hsrc].
  exists key. split; [done|]. split; [done|]. split; [|done].
  intros k Hk. by rewrite lookup_insert_ne.
Qed.

Lemma validate_environment_result_witness :
  ∃ key : string,
    key ≠ ""
    ∧ ({["dabom_api_key" := "from-env"; "timeout" := "3"]} : gmap string string)
      = <["dabom_api_key" := key]> {["dabom_api_key" := ""; "timeout" := "3"]}
    ∧ (∀ k, k ≠ "dabom_api_key" →
         ({["dabom_api_key" := "from-env"; "timeout" := "3"]}
            : gmap string string) !! k
         = ({["dabom_api_key" := ""; "timeout" := "3"]}
              : gmap string string) !! k)
    ∧ (({["dabom_api_key" := ""; "timeout" := "3"]} : gmap string string)
         !! "dabom_api_key" = Some key
       ∨ ((({["dabom_api_key" := ""; "timeout" := "3"]} : gmap string string)
             !! "dabom_api_key" = None
           ∨ ({["dabom_api_key" := ""; "timeout" := "3"]} : gmap string string)
               !! "dabom_api_key" = Some "")
          ∧ ({["DABOM_API_KEY" := "from-env"]} : gmap string string)
              !! "DABOM_API_KEY" = Some key)).
Proof.
  apply (validate_environment_result
           {["dabom_api_key" := ""; "timeout" := "3"]}
           {["DABOM_API_KEY" := "from-env"]}).
  vm_compute. reflexivity.
Defined.

(** X13.  Validation is idempotent: a validated argument set validates to
    itself, in any environment. *)
Theorem validate_environment_idempotent
    (values environ values' environ' : gmap string string) :
  validate_environment values environ = Return values' →
  validate_environment values' environ' = Return values'.
Proof.
  intros H.
  destruct (validate_environment_inv values environ values' H)
    as (key & Hget & ->).
  apply get_from_dict_or_env_Return in Hget as [Hne _].
  rewrite (validate_environment_explicit key)
    by (by rewrite ?lookup_insert_eq).
  by rewrite insert_insert_eq.
Qed.

Lemma validate_environment_idempotent_witness :
  validate_environment {["dabom_api_key" := "from-env"]} ∅
  = Return {["dabom_api_key" := "from-env"]}.
Proof.
  apply (validate_environment_idempotent ∅ {["DABOM_API_KEY" := "from-env"]}).
  vm_compute. reflexivity.
Defined.

(** X14.  An empty value counts as no value: an empty [dabom_api_key]
    argument is validated like an omitted one, and an empty [DABOM_API_KEY]
    like an unset one. *)
Theorem empty_credential_is_absent (values environ : gmap string string) :
  (values !! "dabom_api_key" = Some "" →
   validate_environment values environ
   = validate_environment (delete "dabom_api_key" values) environ)
  ∧ (environ !! "DABOM_API_KEY" = Some "" →
     validate_environment values environ
     = validate_environment values (delete "DABOM_API_KEY" environ)).
Proof.
  unfold validate_environment, get_from_dict_or_env, get_from_env. split.
  - intros Hv. rewrite Hv, lookup_delete_eq. simpl.
    destruct (environ !! "DABOM_API_KEY") as [x|]; [|done].
    case_bool_decide; [done|]. simpl. by rewrite insert_delete_eq.
  - intros He. rewrite He, lookup_delete_eq. simpl.
    destruct (values !! "dabom_api_key") as [x|]; [|done].
    by case_bool_decide.
Qed.

Lemma empty_credential_is_absent_witness :
  validate_environment {["dabom_api_key" := ""]} {["DABOM_API_KEY" := "k"]}
  = validate_environment (delete "dabom_api_key" {["dabom_api_key" := ""]})
      {["DABOM_API_KEY" := "k"]}
  ∧ validate_environment ∅ {["DABOM_API_KEY" := ""]}
    = validate_environment ∅ (delete "DABOM_API_KEY" {["DABOM_API_KEY" := ""]}).
Proof.
  split.
  - apply (empty_credential_is_absent {["dabom_api_key" := ""]}
             {["DABOM_API_KEY" := "k"]}).
    reflexivity.
  - apply (empty_credential_is_absent ∅ {["DABOM_API_KEY" := ""]}).
    reflexivity.
Defined.

Lemma new_DabomSearchAPIWrapper_inv
    (kwargs environ : gmap string string) (w : DabomSearchAPIWrapper) :
  new_DabomSearchAPIWrapper kwargs environ = Return w →
  get_from_dict_or_env kwargs "dabom_api_key" "DABOM_API_KEY" environ
    = Return (dabom_api_key w)
  ∧ delete "dabom_api_key" kwargs = ∅.
Proof.
  unfold new_DabomSearchAPIWrapper. intros H.
  destruct (validate_environment kwargs environ) as [values|e] eqn:Hval;
    [|by destruct e].
  destruct (validate_environment_inv kwargs environ values Hval)
    as (key & Hget & ->).
  rewrite lookup_insert_eq, delete_insert_eq in H.
  case_bool_decide as Hextra; [|done]. by injection H as <-.
Qed.

(** X15.  A client that was built holds a key that is not empty, taken from
    the argument or from [DABOM_API_KEY], and no keyword other than
    [dabom_api_key] was passed. *)
Theorem client_built_only_with_key
    (kwargs environ : gmap string string) (w : DabomSearchAPIWrapper) :
  new_DabomSearchAPIWrapper kwargs environ = Return w →
  dabom_api_key w ≠ ""
  ∧ (kwargs !! "dabom_api_key" = Some (dabom_api_key w)
     ∨ environ !! "DABOM_API_KEY" = Some (dabom_api_key w))
  ∧ (∀ k, k ≠ "dabom_api_key" → kwargs !! k = None).
Proof.
  intros H.
  destruct (new_DabomSearchAPIWrapper_inv kwargs environ w H) as [Hget Hextra].
  apply get_from_dict_or_env_Return in Hget as [Hne Hsrc].
  split; [done|]. split; [destruct Hsrc as [?|[_ ?]]; [by left|by right]|].
  intros k Hk. rewrite <- (lookup_delete_ne kwargs "dabom_api_key" k) by done.
  by rewrite Hextra.
Qed.

Lemma client_built_only_with_key_witness :
  "from-env" ≠ ""
  ∧ ((∅ : gmap string string) !! "dabom_api_key" = Some "from-env"
     ∨ ({["DABOM_API_KEY" := "from-env"]} : gmap string string)
         !! "DABOM_API_KEY" = Some "from-env")
  ∧ (∀ k, k ≠ "dabom_api_key" → (∅ : gmap string string) !! k = None).
Proof.
  apply (client_built_only_with_key ∅ {["DABOM_API_KEY" := "from-env"]}
           {| dabom_api_key := "from-env" |}).
  vm_compute. reflexivity.
Defined.

(** X16.  With [Extra.forbid], a keyword that is not a field makes the
    construction fail with a validation error, whatever else is passed. *)
Theorem client_rejects_extra_keyword
    (kwargs environ : gmap string string) (k v : string) :
  kwargs !! k = Some v → k ≠ "dabom_api_key" →
  ∃ errors,
    new_DabomSearchAPIWrapper kwargs environ = Raise (ValidationError errors).
Proof.
  intros Hk Hne. unfold new_DabomSearchAPIWrapper.
  destruct (validate_environment kwargs environ) as [values|e] eqn:Hval.
  - destruct (validate_environment_inv kwargs environ values Hval)
      as (key & _ & ->).
    rewrite lookup_insert_eq, delete_insert_eq.
    rewrite bool_decide_eq_false_2; [by eexists|].
    intros Hempty.
    assert (delete "dabom_api_key" kwargs !! k = Some v) as Hin
      by (by rewrite lookup_delete_ne).
    by rewrite Hempty in Hin.
  - unfold validate_environment in Hval.
    destruct (get_from_dict_or_env kwargs _ _ environ) as [x|e'] eqn:Hget;
      simpl in Hval; [done|].
    injection Hval as <-.
    unfold get_from_dict_or_env, get_from_env in Hget.
    repeat (case_match; try done); injection Hget as <-; by eexists.
Qed.

Lemma client_rejects_extra_keyword_witness :
  ∃ errors,
    new_DabomSearchAPIWrapper {["dabom_api_key" := "k"; "timeout" := "3"]} ∅
    = Raise (ValidationError errors).
Proof.
  apply (client_rejects_extra_keyword
           {["dabom_api_key" := "k"; "timeout" := "3"]} ∅ "timeout" "3");
    [reflexivity|discriminate].
Defined.

(** X17.  A tool built without [api_wrapper] gets its client from the
    environment: it is built exactly when [DABOM_API_KEY] holds a key that is
    not empty, and its client then holds that key; a tool given a client is
    always built and keeps it. *)
Theorem default_tool_needs_environment
    (max_results : arg Z) (environ : gmap string string) :
  (∀ tool,
     new_DabomSearchResults Omitted max_results environ = Return tool
     ↔ environ !! "DABOM_API_KEY" = Some (dabom_api_key (api_wrapper tool))
       ∧ dabom_api_key (api_wrapper tool) ≠ ""
       ∧ tool = {| name := "tavily_search_results_json";
                   api_wrapper := api_wrapper tool;
                   max_results := default_to 5 max_results |})
  ∧ (∀ w, ∃ tool,
       new_DabomSearchResults (Passed w) max_results environ = Return tool
       ∧ api_wrapper tool = w).
Proof.
  split; [|intros w; by eexists].
  intros tool. unfold new_DabomSearchResults. split.
  - intros H.
    destruct (new_DabomSearchAPIWrapper ∅ environ) as [w|e] eqn:Hw;
      simpl in H; [|done].
    injection H as <-. simpl.
    destruct (new_DabomSearchAPIWrapper_inv ∅ environ w Hw) as [Hget _].
    apply get_from_dict_or_env_Return in Hget as [Hne Hsrc].
    rewrite lookup_empty in Hsrc. by destruct Hsrc as [?|[_ ?]].
  - intros (Henv & Hne & ->). simpl.
    unfold new_DabomSearchAPIWrapper.
    rewrite (validate_environment_env _ ∅ environ) by done.
    rewrite lookup_insert_eq, delete_insert_eq, delete_empty.
    rewrite bool_decide_eq_true_2 by done. simpl.
    by destruct (api_wrapper tool).
Qed.

(** ** What the calls can raise and what the tool sends *)

Lemma cleaning_Raise self j e :
  (res ← py_getitem j "results"; clean_results self res) = Raise e →
  shape_error e.
Proof.
  unfold shape_error.
  destruct (py_getitem j "results") as [res|e1] eqn:Hres; simpl.
  - unfold clean_results.
    destruct (py_iter res) as [items|e2] eqn:Hit; simpl.
    + intros H. apply clean_results_loop_Raise in H. tauto.
    + intros [= <-]. destruct res; simpl in Hit; try done;
        injection Hit as <-; do 3 right; by eexists.
  - intros [= <-]. destruct (py_getitem_Raise _ _ _ Hres) as [->|?]; auto.
Qed.

(** X18.  Once a response has arrived, [results] raises nothing but the
    [HTTPError] of a 4xx/5xx status, the decoder's error on a body that is
    not JSON, or the [KeyError]/[TypeError] of a document of the wrong shape;
    [results_async] the same with its own status error in place of
    [HTTPError]. *)
Theorem results_raise_only
    (json_loads : string → option json)
    (self : DabomSearchAPIWrapper) (query : string)
    (max_results : arg (option Z)) (sent : list http_request)
    (response : http_response) (e : py_exception) :
  ((results (mock response) json_loads self query max_results sent).1
     = Raise e →
   (400 ≤ status response < 600 ∧ ∃ msg, e = HTTPError msg response)
   ∨ (json_loads (text response) = None ∧ e = JSONDecodeError (text response))
   ∨ shape_error e)
  ∧ ((results_async (mock response) json_loads self query max_results sent).1
       = Raise e →
     (status response ≠ 200
      ∧ e = PyException ("Error " +:+ pretty (status response) +:+ ": "
                         +:+ reason response))
     ∨ (json_loads (text response) = None
        ∧ e = JSONDecodeError (text response))
     ∨ shape_error e).
Proof.
  rewrite results_run, results_async_run, raw_results_run,
    raw_results_async_run.
  unfold mock. simpl. split.
  - destruct (decide (400 ≤ status response < 600)) as [Hst|Hst].
    + destruct (raise_for_status_raises response Hst) as [msg ->]. simpl.
      intros [= <-]. left. split; [done|by eexists].
    + rewrite raise_for_status_passes by done. simpl.
      unfold response_json, decode_json.
      destruct (json_loads (text response)) as [j|]; simpl.
      * intros H. do 2 right. by apply (cleaning_Raise self j).
      * intros [= <-]. right. by left.
  - destruct (decide (status response = 200)) as [Hst|Hst].
    + rewrite fetch_gate_200 by done. simpl. unfold decode_json.
      destruct (json_loads (text response)) as [j|]; simpl.
      * intros H. do 2 right. by apply (cleaning_Raise self j).
      * intros [= <-]. right. by left.
    + rewrite fetch_gate_other by done. simpl. intros [= <-]. by left.
Qed.

Lemma results_raise_only_witness :
  (400 ≤ status (example_response 200 "OK" lacking_doc) < 600
   ∧ ∃ msg, KeyError "content"
            = HTTPError msg (example_response 200 "OK" lacking_doc))
  ∨ (example_json_loads (text (example_response 200 "OK" lacking_doc)) = None
     ∧ KeyError "content"
       = JSONDecodeError (text (example_response 200 "OK" lacking_doc)))
  ∨ shape_error (KeyError "content").
Proof.
  destruct (results_raise_only example_json_loads example_client "x" Omitted []
              (example_response 200 "OK" lacking_doc) (KeyError "content"))
    as [Hsync _].
  apply Hsync. vm_compute. reflexivity.
Defined.

(** X19.  The tool forwards its query and its configured [max_results] as
    they are, whatever the integer: the request of [_run] has the body
    [query], [max_results]; the one of [_arun] has [api_key] before them. *)
Theorem tool_forwards_query_and_max_results
    (server : http_request → py_result http_response)
    (json_loads : string → option json) (repr : py_exception → string)
    (tool : DabomSearchResults) (query : string) (sent : list http_request) :
  (∃ req,
     (_run server json_loads repr tool query sent).2 = sent ++ [req]
     ∧ req_json req = JObj [("query", JStr query);
                            ("max_results", JInt (max_results tool))])
  ∧ (∃ req,
       (_arun server json_loads repr tool query sent).2 = sent ++ [req]
       ∧ req_json req
         = JObj [("api_key", JStr (dabom_api_key (api_wrapper tool)));
                 ("query", JStr query);
                 ("max_results", JInt (max_results tool))]).
Proof.
  rewrite _run_run, _arun_run. simpl.
  rewrite results_sent, results_async_sent. split; by eexists.
Qed.
